(** * Feast feature definitions: the registry manifest and its registration

    A shallow embedding of [feast/data-sources/feature-definitions.py].
    The module declares four registries (entities, data sources, feature
    views, feature services) as literal lists and hands three of them, by
    reference, to an external store through [store.apply].

    The declarations are embedded as records and lists; the Python [dict]
    of tags is a [gmap string string].  The store is an external
    collaborator: a store handle is modelled by the behaviour of its
    [apply] method on the state it can reach, and [apply_feature_definitions]
    is written in a small state-and-exception monad over that state. *)

From Stdlib Require Import Ascii.
From stdpp Require Import base gmap strings list pretty.

Open Scope string_scope.
Open Scope list_scope.

(* ===================================================================== *)
(** ** The value objects of the manifest *)
(* ===================================================================== *)

(** The members of [feast.ValueType] this module mentions. *)
Inductive ValueType := INT64 | STRING | FLOAT | BOOL.

#[global] Instance ValueType_eq_dec : EqDecision ValueType.
Proof. solve_decision. Defined.

(** [datetime.timedelta], in its normalised representation: any number of
    days, [0 <= seconds < 86400], [0 <= microseconds < 10^6]. *)
Record timedelta := mk_timedelta {
  td_days : Z;
  td_seconds : Z;
  td_microseconds : Z
}.

#[global] Instance timedelta_eq_dec : EqDecision timedelta.
Proof. solve_decision. Defined.

(** [timedelta(days=d, hours=h)]: the constructor adds the fields up and
    normalises with floor division, as [divmod] does. *)
Definition timedelta_of (d h : Z) : timedelta :=
  let s := (d * 86400 + h * 3600)%Z in
  {| td_days := (s `div` 86400)%Z;
     td_seconds := (s `mod` 86400)%Z;
     td_microseconds := 0%Z |}.

Definition timedelta_zero : timedelta := timedelta_of 0 0.

(** [a <= b] on timedeltas compares the triples (days, seconds,
    microseconds) lexicographically. *)
Definition timedelta_cmp (a b : timedelta) : comparison :=
  match (td_days a ?= td_days b)%Z with
  | Eq => match (td_seconds a ?= td_seconds b)%Z with
          | Eq => (td_microseconds a ?= td_microseconds b)%Z
          | c => c
          end
  | c => c
  end.

Definition timedelta_le (a b : timedelta) : bool :=
  match timedelta_cmp a b with Gt => false | _ => true end.

Definition total_microseconds (t : timedelta) : Z :=
  ((td_days t * 86400 + td_seconds t) * 1000000 + td_microseconds t)%Z.

Definition timedelta_normal (t : timedelta) : Prop :=
  (0 ≤ td_seconds t < 86400)%Z ∧ (0 ≤ td_microseconds t < 1000000)%Z.

Record Entity := mk_Entity {
  entity_name : string;
  entity_value_type : ValueType;
  entity_description : string;
  entity_tags : gmap string string
}.

#[global] Instance Entity_eq_dec : EqDecision Entity.
Proof. solve_decision. Defined.

(** [Feature(name=..., dtype=..., description=...)]; the request schema
    gives no description. *)
Record Feature := mk_Feature {
  feature_name : string;
  feature_dtype : ValueType;
  feature_description : option string
}.

#[global] Instance Feature_eq_dec : EqDecision Feature.
Proof. solve_decision. Defined.

(** The two kinds of data source the module builds. *)
Inductive DataSource :=
| FileSource (name path timestamp_field created_timestamp_column
              description : string) (tags : gmap string string)
| RequestSource (name : string) (schema : list Feature)
                (description : string).

#[global] Instance DataSource_eq_dec : EqDecision DataSource.
Proof. solve_decision. Defined.

Definition source_name (d : DataSource) : string :=
  match d with
  | FileSource n _ _ _ _ _ => n
  | RequestSource n _ _ => n
  end.

Record FeatureView := mk_FeatureView {
  fv_name : string;
  fv_entities : list string;
  fv_ttl : timedelta;
  fv_features : list Feature;
  fv_online : bool;
  fv_batch_source : DataSource;
  fv_tags : gmap string string
}.

#[global] Instance FeatureView_eq_dec : EqDecision FeatureView.
Proof. solve_decision. Defined.

(** [view[[n1, n2, ...]]]: a feature view together with the feature names
    picked from it. *)
Record Selection := mk_Selection {
  sel_view : FeatureView;
  sel_names : list string
}.

#[global] Instance Selection_eq_dec : EqDecision Selection.
Proof. solve_decision. Defined.

Definition getitem (v : FeatureView) (names : list string) : Selection :=
  {| sel_view := v; sel_names := names |}.

Record FeatureService := mk_FeatureService {
  fs_name : string;
  fs_features : list Selection;
  fs_tags : gmap string string
}.

#[global] Instance FeatureService_eq_dec : EqDecision FeatureService.
Proof. solve_decision. Defined.

(** A [dict] literal of string pairs. *)
Definition dict (kvs : list (string * string)) : gmap string string :=
  list_to_map kvs.

(* ===================================================================== *)
(** ** Entities *)
(* ===================================================================== *)

Definition user_entity : Entity :=
  {| entity_name := "user_id";
     entity_value_type := INT64;
     entity_description := "Unique identifier for users/customers";
     entity_tags := dict [("team", "customer_analytics"); ("domain", "user")] |}.

Definition driver_entity : Entity :=
  {| entity_name := "driver_id";
     entity_value_type := INT64;
     entity_description := "Unique identifier for drivers";
     entity_tags := dict [("team", "driver_analytics"); ("domain", "driver")] |}.

Definition product_entity : Entity :=
  {| entity_name := "product_id";
     entity_value_type := STRING;
     entity_description := "Unique identifier for products";
     entity_tags := dict [("team", "product_analytics"); ("domain", "product")] |}.

Definition location_entity : Entity :=
  {| entity_name := "location_id";
     entity_value_type := INT64;
     entity_description := "Unique identifier for geographical locations";
     entity_tags := dict [("team", "geo_analytics"); ("domain", "location")] |}.

(* ===================================================================== *)
(** ** Data sources *)
(* ===================================================================== *)

Definition user_activity_source : DataSource :=
  FileSource "user_activity_source"
    "s3://ai-ml-platform-ml-dev-datasets/feast/user_activity/"
    "event_timestamp" "created_timestamp"
    "User activity and engagement metrics"
    (dict [("source", "user_events"); ("format", "parquet")]).

Definition driver_performance_source : DataSource :=
  FileSource "driver_performance_source"
    "s3://ai-ml-platform-ml-dev-datasets/feast/driver_performance/"
    "event_timestamp" "created_timestamp"
    "Driver performance and behavior metrics"
    (dict [("source", "driver_events"); ("format", "parquet")]).

Definition product_catalog_source : DataSource :=
  FileSource "product_catalog_source"
    "s3://ai-ml-platform-ml-dev-datasets/feast/product_catalog/"
    "event_timestamp" "created_timestamp"
    "Product information and metadata"
    (dict [("source", "product_catalog"); ("format", "parquet")]).

Definition transaction_source : DataSource :=
  FileSource "transaction_source"
    "s3://ai-ml-platform-ml-dev-datasets/feast/transactions/"
    "event_timestamp" "created_timestamp"
    "Financial transaction data"
    (dict [("source", "transactions"); ("format", "parquet")]).

Definition user_activity_stream_source : DataSource :=
  RequestSource "user_activity_stream_source"
    [ mk_Feature "current_session_duration" INT64 None;
      mk_Feature "pages_viewed_session" INT64 None;
      mk_Feature "current_device_type" STRING None ]
    "Real-time user activity for current session".

(* ===================================================================== *)
(** ** Feature views *)
(* ===================================================================== *)

Definition user_engagement_features : FeatureView :=
  {| fv_name := "user_engagement_features";
     fv_entities := ["user_id"];
     fv_ttl := timedelta_of 7 0;
     fv_features :=
       [ mk_Feature "total_sessions_7d" INT64
           (Some "Total sessions in last 7 days");
         mk_Feature "avg_session_duration_7d" FLOAT
           (Some "Average session duration in last 7 days (minutes)");
         mk_Feature "total_page_views_7d" INT64
           (Some "Total page views in last 7 days");
         mk_Feature "unique_pages_viewed_7d" INT64
           (Some "Unique pages viewed in last 7 days");
         mk_Feature "bounce_rate_7d" FLOAT
           (Some "Bounce rate in last 7 days");
         mk_Feature "conversion_rate_7d" FLOAT
           (Some "Conversion rate in last 7 days");
         mk_Feature "last_activity_hours_ago" FLOAT
           (Some "Hours since last activity") ];
     fv_online := true;
     fv_batch_source := user_activity_source;
     fv_tags := dict [("team", "growth"); ("category", "engagement")] |}.

Definition user_demographics_features : FeatureView :=
  {| fv_name := "user_demographics_features";
     fv_entities := ["user_id"];
     fv_ttl := timedelta_of 30 0;
     fv_features :=
       [ mk_Feature "age_group" STRING
           (Some "User age group (18-25, 26-35, etc.)");
         mk_Feature "country" STRING
           (Some "User country");
         mk_Feature "city" STRING
           (Some "User city");
         mk_Feature "signup_days_ago" INT64
           (Some "Days since user signup");
         mk_Feature "is_premium_user" BOOL
           (Some "Whether user has premium subscription");
         mk_Feature "preferred_language" STRING
           (Some "User's preferred language") ];
     fv_online := true;
     fv_batch_source := user_activity_source;
     fv_tags := dict [("team", "customer_success"); ("category", "demographics")] |}.

Definition driver_performance_features : FeatureView :=
  {| fv_name := "driver_performance_features";
     fv_entities := ["driver_id"];
     fv_ttl := timedelta_of 1 0;
     fv_features :=
       [ mk_Feature "avg_rating_30d" FLOAT
           (Some "Average driver rating in last 30 days");
         mk_Feature "total_trips_30d" INT64
           (Some "Total trips completed in last 30 days");
         mk_Feature "total_earnings_30d" FLOAT
           (Some "Total earnings in last 30 days");
         mk_Feature "acceptance_rate_30d" FLOAT
           (Some "Trip acceptance rate in last 30 days");
         mk_Feature "cancellation_rate_30d" FLOAT
           (Some "Trip cancellation rate in last 30 days");
         mk_Feature "avg_trip_duration_30d" FLOAT
           (Some "Average trip duration in last 30 days (minutes)");
         mk_Feature "peak_hours_activity_30d" FLOAT
           (Some "Percentage of activity during peak hours") ];
     fv_online := true;
     fv_batch_source := driver_performance_source;
     fv_tags := dict [("team", "driver_ops"); ("category", "performance")] |}.

Definition product_features : FeatureView :=
  {| fv_name := "product_features";
     fv_entities := ["product_id"];
     fv_ttl := timedelta_of 1 0;
     fv_features :=
       [ mk_Feature "category" STRING
           (Some "Product category");
         mk_Feature "price" FLOAT
           (Some "Current product price");
         mk_Feature "discount_percentage" FLOAT
           (Some "Current discount percentage");
         mk_Feature "avg_rating" FLOAT
           (Some "Average product rating");
         mk_Feature "total_reviews" INT64
           (Some "Total number of reviews");
         mk_Feature "inventory_count" INT64
           (Some "Current inventory count");
         mk_Feature "is_trending" BOOL
           (Some "Whether product is currently trending");
         mk_Feature "days_since_launch" INT64
           (Some "Days since product launch") ];
     fv_online := true;
     fv_batch_source := product_catalog_source;
     fv_tags := dict [("team", "product"); ("category", "catalog")] |}.

Definition transaction_features : FeatureView :=
  {| fv_name := "transaction_features";
     fv_entities := ["user_id"];
     fv_ttl := timedelta_of 7 0;
     fv_features :=
       [ mk_Feature "total_spent_7d" FLOAT
           (Some "Total amount spent in last 7 days");
         mk_Feature "total_spent_30d" FLOAT
           (Some "Total amount spent in last 30 days");
         mk_Feature "transaction_count_7d" INT64
           (Some "Number of transactions in last 7 days");
         mk_Feature "transaction_count_30d" INT64
           (Some "Number of transactions in last 30 days");
         mk_Feature "avg_transaction_amount_30d" FLOAT
           (Some "Average transaction amount in last 30 days");
         mk_Feature "max_transaction_amount_30d" FLOAT
           (Some "Maximum transaction amount in last 30 days");
         mk_Feature "unique_merchants_30d" INT64
           (Some "Number of unique merchants in last 30 days");
         mk_Feature "failed_transactions_7d" INT64
           (Some "Number of failed transactions in last 7 days") ];
     fv_online := true;
     fv_batch_source := transaction_source;
     fv_tags := dict [("team", "payments"); ("category", "transactions")] |}.

Definition user_session_features : FeatureView :=
  {| fv_name := "user_session_features";
     fv_entities := ["user_id"];
     fv_ttl := timedelta_of 0 1;
     fv_features :=
       [ mk_Feature "current_session_duration" INT64
           (Some "Current session duration in minutes");
         mk_Feature "pages_viewed_session" INT64
           (Some "Pages viewed in current session");
         mk_Feature "current_device_type" STRING
           (Some "Device type for current session") ];
     fv_online := true;
     fv_batch_source := user_activity_stream_source;
     fv_tags := dict [("team", "real_time"); ("category", "session")] |}.

(* ===================================================================== *)
(** ** Feature services *)
(* ===================================================================== *)

Definition recommendation_feature_service : FeatureService :=
  {| fs_name := "recommendation_v1";
     fs_features :=
       [ getitem user_engagement_features
           ["total_sessions_7d"; "avg_session_duration_7d"; "conversion_rate_7d"];
         getitem user_demographics_features
           ["age_group"; "country"; "is_premium_user"];
         getitem transaction_features
           ["total_spent_30d"; "avg_transaction_amount_30d"];
         getitem product_features
           ["category"; "price"; "avg_rating"; "is_trending"] ];
     fs_tags := dict [("model", "recommendation"); ("version", "v1")] |}.

Definition fraud_detection_feature_service : FeatureService :=
  {| fs_name := "fraud_detection_v1";
     fs_features :=
       [ getitem transaction_features
           ["transaction_count_7d"; "avg_transaction_amount_30d"; "failed_transactions_7d"];
         getitem user_demographics_features
           ["country"; "signup_days_ago"];
         getitem user_session_features
           ["current_device_type"] ];
     fs_tags := dict [("model", "fraud_detection"); ("version", "v1")] |}.

Definition driver_matching_feature_service : FeatureService :=
  {| fs_name := "driver_matching_v1";
     fs_features :=
       [ getitem driver_performance_features
           ["avg_rating_30d"; "acceptance_rate_30d"; "total_trips_30d"] ];
     fs_tags := dict [("model", "driver_matching"); ("version", "v1")] |}.

Definition churn_prediction_feature_service : FeatureService :=
  {| fs_name := "churn_prediction_v1";
     fs_features :=
       [ getitem user_engagement_features
           ["total_sessions_7d"; "last_activity_hours_ago"; "bounce_rate_7d"];
         getitem user_demographics_features
           ["signup_days_ago"; "is_premium_user"];
         getitem transaction_features
           ["transaction_count_30d"; "total_spent_30d"] ];
     fs_tags := dict [("model", "churn_prediction"); ("version", "v1")] |}.

(* ===================================================================== *)
(** ** Feature store registry *)
(* ===================================================================== *)

Definition ENTITIES : list Entity :=
  [ user_entity; driver_entity; product_entity; location_entity ].

Definition FEATURE_VIEWS : list FeatureView :=
  [ user_engagement_features; user_demographics_features;
    driver_performance_features; product_features;
    transaction_features; user_session_features ].

Definition FEATURE_SERVICES : list FeatureService :=
  [ recommendation_feature_service; fraud_detection_feature_service;
    driver_matching_feature_service; churn_prediction_feature_service ].

Definition DATA_SOURCES : list DataSource :=
  [ user_activity_source; driver_performance_source;
    product_catalog_source; transaction_source;
    user_activity_stream_source ].

(* ===================================================================== *)
(** ** The state the module shares with the store *)
(* ===================================================================== *)

(** The four module-level names bound to list objects.  A call
    [store.apply(ENTITIES)] passes the list object itself, so the callee
    sees, and may update, the very list the module holds. *)
Inductive Global :=
| G_ENTITIES | G_FEATURE_VIEWS | G_FEATURE_SERVICES | G_DATA_SOURCES.

#[global] Instance Global_eq_dec : EqDecision Global.
Proof. solve_decision. Defined.

(** The current contents of the four list objects. *)
Record Registry := mk_Registry {
  entities : list Entity;
  feature_views : list FeatureView;
  feature_services : list FeatureService;
  data_sources : list DataSource
}.

#[global] Instance Registry_eq_dec : EqDecision Registry.
Proof. solve_decision. Defined.

(** The registry as the module body leaves it once loaded. *)
Definition module_load : Registry :=
  {| entities := ENTITIES;
     feature_views := FEATURE_VIEWS;
     feature_services := FEATURE_SERVICES;
     data_sources := DATA_SOURCES |}.

Inductive FeastObject :=
| ObjEntity (e : Entity)
| ObjFeatureView (v : FeatureView)
| ObjFeatureService (s : FeatureService)
| ObjDataSource (d : DataSource).

(** The elements of the list a global name is bound to. *)
Definition contents (g : Global) (r : Registry) : list FeastObject :=
  match g with
  | G_ENTITIES => ObjEntity <$> entities r
  | G_FEATURE_VIEWS => ObjFeatureView <$> feature_views r
  | G_FEATURE_SERVICES => ObjFeatureService <$> feature_services r
  | G_DATA_SOURCES => ObjDataSource <$> data_sources r
  end.

Record Exception := mk_Exception {
  exc_class : string;
  exc_message : string
}.

#[global] Instance Exception_eq_dec : EqDecision Exception.
Proof. solve_decision. Defined.

Section Store.

(** The state owned by the external feature store. *)
Context {S : Type}.

(** What one [store.apply(objects)] call does: it may rewrite the lists
    reachable from its argument, move its own state, write to standard
    output, and either return or raise. *)
Record ApplyResult := mk_ApplyResult {
  res_registry : Registry;
  res_state : S;
  res_printed : list string;
  res_raised : option Exception
}.

(** A store handle is any object with an [apply] method. *)
Record StoreHandle := mk_StoreHandle {
  apply : Global → Registry → S → ApplyResult
}.

(** One recorded [store.apply] invocation: the argument, and the
    registry as the call found it and as it left it. *)
Record ApplyCall := mk_ApplyCall {
  call_arg : Global;
  call_before : Registry;
  call_after : Registry
}.

Record World := mk_World {
  registry : Registry;
  backend : S;
  stdout : list string;
  apply_log : list ApplyCall
}.

Inductive Outcome (A : Type) :=
| Returned (a : A) (w : World)
| Raised (e : Exception) (w : World).
Arguments Returned {A} a w.
Arguments Raised {A} e w.

Definition final {A} (o : Outcome A) : World :=
  match o with Returned _ w => w | Raised _ w => w end.

Definition raised {A} (o : Outcome A) : option Exception :=
  match o with Returned _ _ => None | Raised e _ => Some e end.

(** Statements: state passing, with an uncaught exception cutting the
    rest of the block short. *)
Definition Py (A : Type) : Type := World → Outcome A.

Definition ret {A} (a : A) : Py A := λ w, Returned a w.

Definition bind {A B} (c : Py A) (k : A → Py B) : Py B :=
  λ w, match c w with
       | Returned a w' => k a w'
       | Raised e w' => Raised e w'
       end.

Definition printed (line : string) (w : World) : World :=
  {| registry := registry w; backend := backend w;
     stdout := stdout w ++ [line]; apply_log := apply_log w |}.

Definition print (line : string) : Py unit :=
  λ w, Returned () (printed line w).

(** [len(NAME)] on one of the module's lists. *)
Definition len (g : Global) : Py nat :=
  λ w, Returned (length (contents g (registry w))) w.

(** [store.apply(NAME)]. *)
Definition store_apply (store : StoreHandle) (g : Global) : Py unit :=
  λ w,
    let r := apply store g (registry w) (backend w) in
    let w' := {| registry := res_registry r;
                 backend := res_state r;
                 stdout := stdout w ++ res_printed r;
                 apply_log := apply_log w ++
                   [ {| call_arg := g; call_before := registry w;
                        call_after := res_registry r |} ] |} in
    match res_raised r with
    | Some e => Raised e w'
    | None => Returned () w'
    end.

End Store.

Arguments ApplyResult : clear implicits.
Arguments StoreHandle : clear implicits.
Arguments World : clear implicits.
Arguments Outcome : clear implicits.
Arguments Py : clear implicits.
Arguments Returned {S A} a w.
Arguments Raised {S A} e w.

#[global] Instance Py_ret {S} : MRet (Py S) := λ A, ret.
#[global] Instance Py_bind {S} : MBind (Py S) := λ A B k c, bind c k.

Section Module.

Context {S : Type}.

Definition apply_feature_definitions (store : StoreHandle S) : Py S unit :=
  print "Applying entities..." ;;
  store_apply store G_ENTITIES ;;
  print "Applying feature views..." ;;
  store_apply store G_FEATURE_VIEWS ;;
  print "Applying feature services..." ;;
  store_apply store G_FEATURE_SERVICES ;;
  print "Feature definitions applied successfully!".

(** What [FeatureStore(repo_path=...)] does: it moves the state of the
    external store and yields a handle, or raises. *)
Record Constructed := mk_Constructed {
  new_state : S;
  new_store : Exception + StoreHandle S
}.

Definition construct (FeatureStore : string → S → Constructed)
    (repo_path : string) : Py S (StoreHandle S) :=
  λ w,
    let c := FeatureStore repo_path (backend w) in
    let w' := {| registry := registry w; backend := new_state c;
                 stdout := stdout w; apply_log := apply_log w |} in
    match new_store c with
    | inl e => Raised e w'
    | inr h => Returned h w'
    end.

(** An f-string [f"label: {n}"]. *)
Definition fmt (label : string) (n : nat) : string :=
  label +:+ ": " +:+ pretty n.

(** The body of [if __name__ == "__main__":]. *)
Definition main (FeatureStore : string → S → Constructed) : Py S unit :=
  store ← construct FeatureStore ".";
  apply_feature_definitions store ;;
  print (String "010"%char "Feature Store Summary:") ;;
  n ← len G_ENTITIES;
  print (fmt "Entities" n) ;;
  n ← len G_FEATURE_VIEWS;
  print (fmt "Feature Views" n) ;;
  n ← len G_FEATURE_SERVICES;
  print (fmt "Feature Services" n) ;;
  n ← len G_DATA_SOURCES;
  print (fmt "Data Sources" n).

(** The world in which the module body has just been executed. *)
Definition loaded (s : S) : World S :=
  {| registry := module_load; backend := s;
     stdout := []; apply_log := [] |}.

(** The [store.apply] invocations recorded between two worlds. *)
Definition calls_since (w w' : World S) : list ApplyCall :=
  drop (length (apply_log w)) (apply_log w').

(** The arguments [apply_feature_definitions] passes to [store.apply],
    in the order of the calls. *)
Definition invoked (store : StoreHandle S) (w : World S) : list Global :=
  call_arg <$> calls_since w (final (apply_feature_definitions store w)).

(** Every recorded call found the registry as its predecessor left it:
    nothing but the calls themselves wrote to the registry between
    [r0] and [rN]. *)
Fixpoint registry_chain (r0 : Registry) (cs : list ApplyCall)
    (rN : Registry) : Prop :=
  match cs with
  | [] => r0 = rN
  | c :: cs' => call_before c = r0 ∧ registry_chain (call_after c) cs' rN
  end.

(** The world a [store.apply] call leaves behind, returning or raising. *)
Definition applied (store : StoreHandle S) (g : Global) (w : World S)
    : World S :=
  final (store_apply store g w).

(** The four courses a run of [apply_feature_definitions] from [w] can
    take, by the step at which [store.apply] raises (or none), each with
    its outcome and the arguments it has passed to [store.apply]. *)
Inductive Trace (store : StoreHandle S) (w : World S)
    : Outcome S unit → list Global → Prop :=
| Trace_entities e w1 :
    store_apply store G_ENTITIES (printed "Applying entities..." w)
      = Raised e w1 →
    Trace store w (Raised e w1) [G_ENTITIES]
| Trace_views e w1 w2 :
    store_apply store G_ENTITIES (printed "Applying entities..." w)
      = Returned () w1 →
    store_apply store G_FEATURE_VIEWS
      (printed "Applying feature views..." w1) = Raised e w2 →
    Trace store w (Raised e w2) [G_ENTITIES; G_FEATURE_VIEWS]
| Trace_services e w1 w2 w3 :
    store_apply store G_ENTITIES (printed "Applying entities..." w)
      = Returned () w1 →
    store_apply store G_FEATURE_VIEWS
      (printed "Applying feature views..." w1) = Returned () w2 →
    store_apply store G_FEATURE_SERVICES
      (printed "Applying feature services..." w2) = Raised e w3 →
    Trace store w (Raised e w3)
      [G_ENTITIES; G_FEATURE_VIEWS; G_FEATURE_SERVICES]
| Trace_done w1 w2 w3 :
    store_apply store G_ENTITIES (printed "Applying entities..." w)
      = Returned () w1 →
    store_apply store G_FEATURE_VIEWS
      (printed "Applying feature views..." w1) = Returned () w2 →
    store_apply store G_FEATURE_SERVICES
      (printed "Applying feature services..." w2) = Returned () w3 →
    Trace store w
      (Returned () (printed "Feature definitions applied successfully!" w3))
      [G_ENTITIES; G_FEATURE_VIEWS; G_FEATURE_SERVICES].

End Module.

Definition registration_order : list Global :=
  [G_ENTITIES; G_FEATURE_VIEWS; G_FEATURE_SERVICES].

(** The five lines printed after registration, for a given registry. *)
Definition summary (r : Registry) : list string :=
  [ String "010"%char "Feature Store Summary:";
    fmt "Entities" (length (contents G_ENTITIES r));
    fmt "Feature Views" (length (contents G_FEATURE_VIEWS r));
    fmt "Feature Services" (length (contents G_FEATURE_SERVICES r));
    fmt "Data Sources" (length (contents G_DATA_SOURCES r)) ].

Definition counts (r : Registry) : nat * nat * nat * nat :=
  (length (entities r), length (feature_views r),
   length (feature_services r), length (data_sources r)).

(* ===================================================================== *)
(** ** Some store handles *)
(* ===================================================================== *)

(** A mock store: it records the objects of every collection it is given
    and touches nothing else. *)
Definition recording_store : StoreHandle (list (list FeastObject)) :=
  {| apply := λ g r s,
       {| res_registry := r; res_state := s ++ [contents g r];
          res_printed := []; res_raised := None |} |}.

(** A store with a budget of calls: it accepts while the budget lasts and
    raises once it is spent. *)
Definition quota_exceeded : Exception :=
  {| exc_class := "RuntimeError"; exc_message := "registry quota exceeded" |}.

Definition metered_store : StoreHandle nat :=
  {| apply := λ g r s,
       match s with
       | O => {| res_registry := r; res_state := O;
                 res_printed := []; res_raised := Some quota_exceeded |}
       | Datatypes.S s' => {| res_registry := r; res_state := s';
                    res_printed := []; res_raised := None |}
       end |}.

(** [objects.pop()] on whichever list is passed. *)
Definition pop_last (g : Global) (r : Registry) : Registry :=
  match g with
  | G_ENTITIES =>
      {| entities := removelast (entities r);
         feature_views := feature_views r;
         feature_services := feature_services r;
         data_sources := data_sources r |}
  | G_FEATURE_VIEWS =>
      {| entities := entities r;
         feature_views := removelast (feature_views r);
         feature_services := feature_services r;
         data_sources := data_sources r |}
  | G_FEATURE_SERVICES =>
      {| entities := entities r;
         feature_views := feature_views r;
         feature_services := removelast (feature_services r);
         data_sources := data_sources r |}
  | G_DATA_SOURCES =>
      {| entities := entities r;
         feature_views := feature_views r;
         feature_services := feature_services r;
         data_sources := removelast (data_sources r) |}
  end.

(** A store that consumes the list it is given: it pops the last object
    off its argument and keeps it. *)
Definition draining_store : StoreHandle (list FeastObject) :=
  {| apply := λ g r s,
       {| res_registry := pop_last g r;
          res_state := s ++ option_list (last (contents g r));
          res_printed := []; res_raised := None |} |}.

(** [FeatureStore(repo_path)] yielding a given handle. *)
Definition opening {S} (store : StoreHandle S) : string → S → Constructed :=
  λ repo_path s, {| new_state := s; new_store := inr store |}.

(* ===================================================================== *)
(** ** Names in a registry *)
(* ===================================================================== *)

Section Names.

Context {A : Type} (key : A → string).

(** No two positions of a list carry the same key. *)
Definition unique_by (l : list A) : Prop :=
  ∀ i j x y, l !! i = Some x → l !! j = Some y → i ≠ j → key x ≠ key y.

(** A name is carried by some element of the list. *)
Definition declares (l : list A) (n : string) : Prop :=
  ∃ x, x ∈ l ∧ key x = n.

End Names.

(* ===================================================================== *)
(** ** Vocabulary for the further properties *)
(* ===================================================================== *)

(** What a consumer sees of a feature: its name and its value type. *)
Definition signature (f : Feature) : string * ValueType :=
  (feature_name f, feature_dtype f).

(** The feature names a service serves, over all its selections. *)
Definition served_names (s : FeatureService) : list string :=
  fs_features s ≫= sel_names.

(** The three progress lines and the closing line that
    [apply_feature_definitions] prints itself. *)
Definition progress_lines : list string :=
  [ "Applying entities..."; "Applying feature views...";
    "Applying feature services..." ].

Definition success_line : string :=
  "Feature definitions applied successfully!".

(** A store whose [apply] writes nothing to standard output. *)
Definition silent {S} (store : StoreHandle S) : Prop :=
  ∀ g r s, res_printed (apply store g r s) = [].

(** [FeatureStore(repo_path)] failing: no configuration at the path. *)
Definition config_missing : Exception :=
  {| exc_class := "FileNotFoundError";
     exc_message := "feature_store.yaml" |}.

Definition unconfigured {S} : string → S → @Constructed S :=
  λ repo_path s, {| new_state := s; new_store := inl config_missing |}.

(* ===================================================================== *)
(** ** Invariants of the declared registry *)
(* ===================================================================== *)

(** Membership in a list given by its elements. *)
Ltac in_list :=
  solve [ repeat first [ apply list_elem_of_here
                       | apply list_elem_of_further ] ].

Section NamesFacts.

Context {A : Type} (key : A → string).

Lemma NoDup_unique_by (l : list A) : NoDup (key <$> l) → unique_by key l.
Proof.
  intros Hnd i j x y Hi Hj Hij Heq. apply Hij.
  apply (NoDup_lookup _ i j (key x) Hnd).
  - by rewrite list_lookup_fmap, Hi.
  - by rewrite list_lookup_fmap, Hj, Heq.
Qed.

Lemma unique_by_NoDup (l : list A) : unique_by key l → NoDup (key <$> l).
Proof.
  intros Hu. apply NoDup_alt. intros i j k Hi Hj.
  rewrite list_lookup_fmap in Hi, Hj.
  destruct (l !! i) as [x|] eqn:Ex; [|done].
  destruct (l !! j) as [y|] eqn:Ey; [|done].
  simplify_eq/=. destruct (decide (i = j)) as [|Hne]; [done|].
  by destruct (Hu i j x y Ex Ey Hne).
Qed.

Lemma declares_fmap (l : list A) (n : string) :
  n ∈ key <$> l ↔ declares key l n.
Proof.
  unfold declares. rewrite list_elem_of_fmap. split.
  - intros (x & -> & Hx). by exists x.
  - intros (x & Hx & <-). by exists x.
Qed.

End NamesFacts.

(** The comparison [timedelta(0) <= t] agrees with the sign of the
    duration on normalised values. *)
Lemma timedelta_le_zero (t : timedelta) :
  timedelta_normal t →
  timedelta_le timedelta_zero t = true ↔ (0 ≤ total_microseconds t)%Z.
Proof.
  intros [Hs Hu]. unfold timedelta_le, timedelta_cmp, total_microseconds.
  change (td_days timedelta_zero) with 0%Z.
  change (td_seconds timedelta_zero) with 0%Z.
  change (td_microseconds timedelta_zero) with 0%Z.
  destruct (Z.compare_spec 0 (td_days t)) as [<-|Hd|Hd].
  - destruct (Z.compare_spec 0 (td_seconds t)) as [<-|Hs'|Hs'].
    + destruct (Z.compare_spec 0 (td_microseconds t)); split; (done || lia).
    + split; [lia|done].
    + lia.
  - split; [lia|done].
  - split; [done|lia].
Qed.

Lemma timedelta_of_normal (d h : Z) : timedelta_normal (timedelta_of d h).
Proof.
  unfold timedelta_normal, timedelta_of; simpl. split; [|lia].
  apply Z.mod_pos_bound. lia.
Qed.

Lemma entity_names_NoDup : NoDup (entity_name <$> ENTITIES).
Proof. by apply (bool_decide_unpack _); vm_compute. Qed.

Lemma source_names_NoDup : NoDup (source_name <$> DATA_SOURCES).
Proof. by apply (bool_decide_unpack _); vm_compute. Qed.

Lemma feature_names_NoDup :
  Forall (λ v, NoDup (feature_name <$> fv_features v)) FEATURE_VIEWS.
Proof. by apply (bool_decide_unpack _); vm_compute. Qed.

Lemma view_entities_declared :
  Forall (λ v, Forall (λ n, n ∈ entity_name <$> ENTITIES) (fv_entities v))
         FEATURE_VIEWS.
Proof. by apply (bool_decide_unpack _); vm_compute. Qed.

Lemma view_ttl_nonneg :
  Forall (λ v, timedelta_le timedelta_zero (fv_ttl v) = true) FEATURE_VIEWS.
Proof. repeat constructor. Qed.

Lemma view_sources_declared :
  Forall (λ v, fv_batch_source v ∈ DATA_SOURCES) FEATURE_VIEWS.
Proof. repeat apply Forall_cons_2; [..|apply Forall_nil_2]; in_list. Qed.

Lemma service_selections_declared :
  Forall (λ s,
    Forall (λ sel,
      sel_view sel ∈ FEATURE_VIEWS ∧
      Forall (λ n, n ∈ feature_name <$> fv_features (sel_view sel))
             (sel_names sel))
      (fs_features s))
    FEATURE_SERVICES.
Proof.
  repeat (apply Forall_cons_2 || apply Forall_nil_2 || split);
    first [ in_list | by apply (bool_decide_unpack _); vm_compute ].
Qed.

(* ===================================================================== *)
(** ** Claims on the declared registry *)
(* ===================================================================== *)

(** C4. Entity names are unique across the entity registry: any two
    entities at different positions of [ENTITIES] have different names. *)
Theorem C4_entity_names_unique :
  ∀ (i j : nat) (e1 e2 : Entity),
    ENTITIES !! i = Some e1 → ENTITIES !! j = Some e2 → i ≠ j →
    entity_name e1 ≠ entity_name e2.
Proof. exact (NoDup_unique_by entity_name ENTITIES entity_names_NoDup). Qed.

Lemma C4_entity_names_unique_witness :
  ENTITIES !! 0 = Some user_entity ∧ ENTITIES !! 3 = Some location_entity ∧
  entity_name user_entity ≠ entity_name location_entity.
Proof.
  split; [reflexivity|]. split; [reflexivity|].
  apply (C4_entity_names_unique 0 3); [reflexivity | reflexivity | lia].
Defined.

(** C3. Every entity name a feature view of [FEATURE_VIEWS] joins on is
    the name of an entity of [ENTITIES]. *)
Theorem C3_view_entities_exist :
  ∀ (v : FeatureView) (n : string),
    v ∈ FEATURE_VIEWS → n ∈ fv_entities v →
    ∃ e, e ∈ ENTITIES ∧ entity_name e = n.
Proof.
  intros v n Hv Hn.
  pose proof (proj1 (Forall_forall _ _) view_entities_declared v Hv) as Hall.
  apply (declares_fmap entity_name).
  exact (proj1 (Forall_forall _ _) Hall n Hn).
Qed.

Lemma C3_view_entities_exist_witness :
  driver_performance_features ∈ FEATURE_VIEWS ∧
  "driver_id" ∈ fv_entities driver_performance_features ∧
  ∃ e, e ∈ ENTITIES ∧ entity_name e = "driver_id".
Proof.
  assert (driver_performance_features ∈ FEATURE_VIEWS) as Hv
    by (unfold FEATURE_VIEWS; in_list).
  assert ("driver_id" ∈ fv_entities driver_performance_features) as Hn
    by (simpl; in_list).
  split; [exact Hv|]. split; [exact Hn|].
  exact (C3_view_entities_exist driver_performance_features "driver_id" Hv Hn).
Defined.

(** C10. Within every feature view of [FEATURE_VIEWS], features at
    different positions of its feature list have different names. *)
Theorem C10_feature_names_unique_in_view :
  ∀ (v : FeatureView), v ∈ FEATURE_VIEWS →
    ∀ (i j : nat) (f1 f2 : Feature),
      fv_features v !! i = Some f1 → fv_features v !! j = Some f2 → i ≠ j →
      feature_name f1 ≠ feature_name f2.
Proof.
  intros v Hv. apply NoDup_unique_by.
  exact (proj1 (Forall_forall _ _) feature_names_NoDup v Hv).
Qed.

Lemma C10_feature_names_unique_in_view_witness :
  transaction_features ∈ FEATURE_VIEWS ∧
  feature_name <$> fv_features transaction_features !! 0
    = Some "total_spent_7d" ∧
  feature_name <$> fv_features transaction_features !! 1
    = Some "total_spent_30d" ∧
  "total_spent_7d" ≠ "total_spent_30d".
Proof.
  assert (transaction_features ∈ FEATURE_VIEWS) as Hin
    by (unfold FEATURE_VIEWS; in_list).
  split; [exact Hin|]. split; [reflexivity|]. split; [reflexivity|].
  apply (C10_feature_names_unique_in_view transaction_features Hin 0 1
           (mk_Feature "total_spent_7d" FLOAT
              (Some "Total amount spent in last 7 days"))
           (mk_Feature "total_spent_30d" FLOAT
              (Some "Total amount spent in last 30 days")));
    [reflexivity | reflexivity | lia].
Defined.

(** C2. Every feature name a feature service of [FEATURE_SERVICES]
    selects is the name of a feature of the view it is selected from, and
    that view is one of [FEATURE_VIEWS]. *)
Theorem C2_service_selections_exist :
  ∀ (s : FeatureService) (sel : Selection) (n : string),
    s ∈ FEATURE_SERVICES → sel ∈ fs_features s → n ∈ sel_names sel →
    sel_view sel ∈ FEATURE_VIEWS ∧
    ∃ f, f ∈ fv_features (sel_view sel) ∧ feature_name f = n.
Proof.
  intros s sel n Hs Hsel Hn.
  pose proof (proj1 (Forall_forall _ _) service_selections_declared s Hs) as H1.
  destruct (proj1 (Forall_forall _ _) H1 sel Hsel) as [Hview Hnames].
  split; [exact Hview|].
  apply (declares_fmap feature_name).
  exact (proj1 (Forall_forall _ _) Hnames n Hn).
Qed.

Lemma C2_service_selections_exist_witness :
  fs_name recommendation_feature_service = "recommendation_v1" ∧
  user_engagement_features ∈ FEATURE_VIEWS ∧
  ∃ f, f ∈ fv_features user_engagement_features ∧
       feature_name f = "total_sessions_7d".
Proof.
  split; [reflexivity|].
  apply (C2_service_selections_exist recommendation_feature_service
           (getitem user_engagement_features
              ["total_sessions_7d"; "avg_session_duration_7d";
               "conversion_rate_7d"])
           "total_sessions_7d").
  - unfold FEATURE_SERVICES. in_list.
  - simpl. in_list.
  - simpl. in_list.
Defined.

(** C8. Every feature view of [FEATURE_VIEWS] has a ttl that is at least
    the zero duration, and its batch source is one data source: exactly
    one slot of [DATA_SOURCES] holds it. *)
Theorem C8_view_ttl_and_source :
  ∀ (v : FeatureView), v ∈ FEATURE_VIEWS →
    timedelta_le timedelta_zero (fv_ttl v) = true ∧
    (0 ≤ total_microseconds (fv_ttl v))%Z ∧
    exists! i : nat, DATA_SOURCES !! i = Some (fv_batch_source v).
Proof.
  intros v Hv.
  pose proof (proj1 (Forall_forall _ _) view_ttl_nonneg v Hv) as Httl.
  pose proof (proj1 (Forall_forall _ _) view_sources_declared v Hv) as Hsrc.
  split; [exact Httl|]. split.
  - apply timedelta_le_zero; [|exact Httl].
    apply list_elem_of_In in Hv. simpl in Hv.
    repeat (destruct Hv as [<-|Hv]; [apply timedelta_of_normal|]).
    destruct Hv.
  - apply list_elem_of_lookup in Hsrc as [i Hi]. exists i. split; [exact Hi|].
    intros j Hj.
    apply (NoDup_lookup DATA_SOURCES i j (fv_batch_source v)); [|done..].
    exact (NoDup_fmap_1 source_name _ source_names_NoDup).
Qed.

Lemma C8_view_ttl_and_source_witness :
  fv_ttl user_session_features = mk_timedelta 0 3600 0 ∧
  timedelta_le timedelta_zero (fv_ttl user_session_features) = true ∧
  (0 ≤ total_microseconds (fv_ttl user_session_features))%Z ∧
  exists! i : nat, DATA_SOURCES !! i = Some (fv_batch_source user_session_features).
Proof.
  split; [reflexivity|].
  apply (C8_view_ttl_and_source user_session_features).
  unfold FEATURE_VIEWS. in_list.
Defined.

(* ===================================================================== *)
(** ** The registration function *)
(* ===================================================================== *)

Section Registration.

Context {S : Type}.
Implicit Types (store : StoreHandle S) (w : World S) (g : Global).

(** The block of [apply_feature_definitions], statement by statement. *)
Lemma apply_feature_definitions_unfold store w :
  apply_feature_definitions store w =
  match store_apply store G_ENTITIES (printed "Applying entities..." w) with
  | Raised e w1 => Raised e w1
  | Returned _ w1 =>
    match store_apply store G_FEATURE_VIEWS
            (printed "Applying feature views..." w1) with
    | Raised e w2 => Raised e w2
    | Returned _ w2 =>
      match store_apply store G_FEATURE_SERVICES
              (printed "Applying feature services..." w2) with
      | Raised e w3 => Raised e w3
      | Returned _ w3 =>
          Returned () (printed "Feature definitions applied successfully!" w3)
      end
    end
  end.
Proof. reflexivity. Qed.

Lemma store_apply_cases store g w :
  (res_raised (apply store g (registry w) (backend w)) = None ∧
   store_apply store g w = Returned () (applied store g w)) ∨
  (∃ e, res_raised (apply store g (registry w) (backend w)) = Some e ∧
        store_apply store g w = Raised e (applied store g w)).
Proof.
  unfold applied, store_apply.
  destruct (res_raised (apply store g (registry w) (backend w))) as [e|];
    [right; exists e|left]; by split.
Qed.

Lemma applied_log store g w :
  apply_log (applied store g w) =
  apply_log w ++ [ {| call_arg := g; call_before := registry w;
                      call_after := registry (applied store g w) |} ].
Proof.
  unfold applied, store_apply.
  by destruct (res_raised (apply store g (registry w) (backend w))).
Qed.

Lemma applied_registry store g w :
  registry (applied store g w) =
  res_registry (apply store g (registry w) (backend w)).
Proof.
  unfold applied, store_apply.
  by destruct (res_raised (apply store g (registry w) (backend w))).
Qed.

Lemma printed_log (line : string) w :
  apply_log (printed line w) = apply_log w.
Proof. reflexivity. Qed.

Lemma printed_registry (line : string) w :
  registry (printed line w) = registry w.
Proof. reflexivity. Qed.

Lemma store_apply_final store g w o :
  store_apply store g w = o → final o = applied store g w.
Proof. by intros <-. Qed.

(** Calls recorded on top of a log are read back by [calls_since]. *)
Lemma calls_since_app w w' (cs : list ApplyCall) :
  apply_log w' = apply_log w ++ cs → calls_since w w' = cs.
Proof. unfold calls_since. intros ->. by rewrite drop_app_length. Qed.

(** If every recorded call left the registry as it found it, the two
    ends of the chain are the same registry. *)
Lemma registry_chain_frame (r0 rN : Registry) (cs : list ApplyCall) :
  registry_chain r0 cs rN →
  Forall (λ c, call_after c = call_before c) cs → r0 = rN.
Proof.
  revert r0. induction cs as [|c cs IH]; simpl; [done|].
  intros r0 [Hb Hcs] Hall. inversion_clear Hall as [|? ? Hc Hrest].
  rewrite <- Hb, <- Hc. by apply IH.
Qed.

Lemma apply_feature_definitions_trace store w :
  ∃ gs, Trace store w (apply_feature_definitions store w) gs.
Proof.
  rewrite apply_feature_definitions_unfold.
  destruct (store_apply store G_ENTITIES _) as [[] w1|e w1] eqn:E1;
    [|eexists; by eapply Trace_entities].
  destruct (store_apply store G_FEATURE_VIEWS _) as [[] w2|e w2] eqn:E2;
    [|eexists; by eapply Trace_views].
  destruct (store_apply store G_FEATURE_SERVICES _) as [[] w3|e w3] eqn:E3;
    [|eexists; by eapply Trace_services].
  eexists; by eapply Trace_done.
Qed.

(** A trace determines the recorded calls and their linking. *)
Lemma Trace_calls store w o gs :
  Trace store w o gs →
  call_arg <$> calls_since w (final o) = gs ∧
  registry_chain (registry w) (calls_since w (final o)) (registry (final o)).
Proof.
  destruct 1 as [e w1 H1|e w1 w2 H1 H2|e w1 w2 w3 H1 H2 H3|w1 w2 w3 H1 H2 H3];
    repeat match goal with
    | H : store_apply _ _ _ = _ |- _ =>
        apply store_apply_final in H; cbn [final] in H; subst
    end; cbn [final].
  all: erewrite calls_since_app;
    [ | repeat (rewrite ?printed_log, applied_log);
        rewrite <- ?(assoc_L (++)); reflexivity ].
  all: cbn [fmap list_fmap app call_arg registry_chain call_before call_after];
    rewrite ?printed_registry; done.
Qed.

End Registration.

(* ===================================================================== *)
(** ** Concrete runs *)
(* ===================================================================== *)

(** With a mock store the run prints its four progress lines and the mock
    has recorded the three collections, in order. *)
Example run_recording_store :
  let w := final (apply_feature_definitions recording_store (loaded [])) in
  stdout w =
    [ "Applying entities..."; "Applying feature views...";
      "Applying feature services...";
      "Feature definitions applied successfully!" ] ∧
  backend w =
    [ contents G_ENTITIES module_load; contents G_FEATURE_VIEWS module_load;
      contents G_FEATURE_SERVICES module_load ].
Proof. cbv zeta. split; vm_compute; reflexivity. Qed.

(** A store that fails on its third call: the error surfaces after the
    third progress line, and the success line is never printed. *)
Example run_metered_store :
  raised (apply_feature_definitions metered_store (loaded 2))
    = Some quota_exceeded ∧
  stdout (final (apply_feature_definitions metered_store (loaded 2))) =
    [ "Applying entities..."; "Applying feature views...";
      "Applying feature services..." ] ∧
  invoked metered_store (loaded 2) = registration_order.
Proof. repeat split; vm_compute; reflexivity. Qed.

Example ttl_values :
  fv_ttl <$> FEATURE_VIEWS =
    [ mk_timedelta 7 0 0; mk_timedelta 30 0 0; mk_timedelta 1 0 0;
      mk_timedelta 1 0 0; mk_timedelta 7 0 0; mk_timedelta 0 3600 0 ].
Proof. reflexivity. Qed.

(* ===================================================================== *)
(** ** Claims on the registration function *)
(* ===================================================================== *)

(** C1, as stated, fails: a store handle whose [apply] raises on the
    second call is invoked twice, not three times. *)
Lemma C1_counterexample :
  invoked metered_store (loaded 1) = [G_ENTITIES; G_FEATURE_VIEWS] ∧
  invoked metered_store (loaded 1) ≠ registration_order.
Proof. split; [by vm_compute | vm_compute; discriminate]. Qed.

(** C1, amended. For every store handle, [apply_feature_definitions]
    invokes [store.apply] in the order [ENTITIES], [FEATURE_VIEWS],
    [FEATURE_SERVICES]: a run that returns has made exactly these three
    calls, a run that raises has made only the first one, the first two,
    or all three of them; and it returns whenever the store's [apply]
    does not raise. *)
Theorem C1_apply_order :
  ∀ (S : Type) (store : StoreHandle S) (w : World S),
    match apply_feature_definitions store w with
    | Returned _ _ => invoked store w = registration_order
    | Raised _ _ =>
        invoked store w ∈
          [take 1 registration_order; take 2 registration_order;
           registration_order]
    end ∧
    ((∀ g r s, res_raised (apply store g r s) = None) →
     ∃ w', apply_feature_definitions store w = Returned () w').
Proof.
  intros S store w. split.
  - unfold invoked.
    destruct (apply_feature_definitions_trace store w) as [gs Ht].
    destruct (Trace_calls _ _ _ _ Ht) as [-> _].
    destruct Ht; unfold registration_order; simpl;
      first [reflexivity | in_list].
  - intros Hok. rewrite apply_feature_definitions_unfold.
    repeat match goal with
    | |- context [store_apply store ?g ?w0] =>
        destruct (store_apply_cases store g w0) as [[_ ->]|(e & He & _)];
          [|by rewrite Hok in He]
    end.
    by eexists.
Qed.

Lemma C1_apply_order_witness :
  invoked recording_store (loaded []) = registration_order ∧
  ∃ w', apply_feature_definitions recording_store (loaded []) = Returned () w'.
Proof.
  split; [by vm_compute|].
  apply (C1_apply_order _ recording_store (loaded [])).
  intros g r s. reflexivity.
Defined.

(** C5. If [store.apply] raises at the first, second or third step, the
    run of [apply_feature_definitions] ends there: it raises the same
    exception and leaves the world exactly as the failing call left it
    (nothing is undone, printed or called afterwards), and no collection
    has been passed to [store.apply] twice. *)
Theorem C5_error_propagates :
  ∀ (S : Type) (store : StoreHandle S) (w w' : World S) (e : Exception),
    let w0 := printed "Applying entities..." w in
    (store_apply store G_ENTITIES w0 = Raised e w' ∨
     (∃ w1,
        store_apply store G_ENTITIES w0 = Returned () w1 ∧
        store_apply store G_FEATURE_VIEWS
          (printed "Applying feature views..." w1) = Raised e w') ∨
     (∃ w1 w2,
        store_apply store G_ENTITIES w0 = Returned () w1 ∧
        store_apply store G_FEATURE_VIEWS
          (printed "Applying feature views..." w1) = Returned () w2 ∧
        store_apply store G_FEATURE_SERVICES
          (printed "Applying feature services..." w2) = Raised e w')) →
    apply_feature_definitions store w = Raised e w' ∧
    NoDup (invoked store w) ∧
    ∃ c, last (apply_log w') = Some c ∧
         last (invoked store w) = Some (call_arg c) ∧
         call_after c = registry w'.
Proof.
  intros S store w w' e w0 Hfail.
  assert (apply_feature_definitions store w = Raised e w') as Hrun.
  { rewrite apply_feature_definitions_unfold. fold w0.
    destruct Hfail as [H1|[(w1 & H1 & H2)|(w1 & w2 & H1 & H2 & H3)]].
    - by rewrite H1.
    - by rewrite H1, H2.
    - by rewrite H1, H2, H3. }
  split; [exact Hrun|].
  unfold invoked. rewrite Hrun. cbn [final].
  destruct Hfail as [H1|[(w1 & H1 & H2)|(w1 & w2 & H1 & H2 & H3)]].
  - pose proof (Trace_calls _ _ _ _ (Trace_entities store w e w' H1)) as [Hc _].
    cbn [final] in Hc. rewrite Hc.
    apply store_apply_final in H1. cbn [final] in H1. subst w'.
    rewrite applied_log, last_snoc.
    split; [by apply (bool_decide_unpack _)|]. by eexists.
  - pose proof (Trace_calls _ _ _ _ (Trace_views store w e w1 w' H1 H2))
      as [Hc _].
    cbn [final] in Hc. rewrite Hc.
    apply store_apply_final in H2. cbn [final] in H2. subst w'.
    rewrite applied_log, last_snoc.
    split; [by apply (bool_decide_unpack _)|]. by eexists.
  - pose proof (Trace_calls _ _ _ _ (Trace_services store w e w1 w2 w' H1 H2 H3))
      as [Hc _].
    cbn [final] in Hc. rewrite Hc.
    apply store_apply_final in H3. cbn [final] in H3. subst w'.
    rewrite applied_log, last_snoc.
    split; [by apply (bool_decide_unpack _)|]. by eexists.
Qed.

Lemma C5_error_propagates_witness :
  let w1 := applied metered_store G_ENTITIES
              (printed "Applying entities..." (loaded 1)) in
  let w' := applied metered_store G_FEATURE_VIEWS
              (printed "Applying feature views..." w1) in
  apply_feature_definitions metered_store (loaded 1)
    = Raised quota_exceeded w' ∧
  NoDup (invoked metered_store (loaded 1)) ∧
  ∃ c, last (apply_log w') = Some c ∧
       last (invoked metered_store (loaded 1)) = Some (call_arg c) ∧
       call_after c = registry w'.
Proof.
  intros w1 w'.
  apply (C5_error_propagates nat metered_store (loaded 1) w' quota_exceeded).
  right; left. exists w1. split; reflexivity.
Defined.

(** C6. [apply_feature_definitions] never passes [DATA_SOURCES] to
    [store.apply], whatever the store does; the data sources reach the
    store only inside feature views: each of the five declared sources is
    the batch source of a view of [FEATURE_VIEWS]; and the summary line of
    the command-line run counts the five of them. *)
Theorem C6_data_sources_not_applied :
  (∀ (S : Type) (store : StoreHandle S) (w : World S),
     G_DATA_SOURCES ∉ invoked store w) ∧
  Forall (λ d, ∃ v, v ∈ FEATURE_VIEWS ∧ fv_batch_source v = d) DATA_SOURCES ∧
  length DATA_SOURCES = 5 ∧
  fmt "Data Sources" (length (contents G_DATA_SOURCES module_load))
    = "Data Sources: 5".
Proof.
  split; [|split; [|split; reflexivity]].
  - intros S store w. unfold invoked.
    destruct (apply_feature_definitions_trace store w) as [gs Ht].
    destruct (Trace_calls _ _ _ _ Ht) as [-> _].
    destruct Ht; rewrite !not_elem_of_cons;
      repeat split; (discriminate || apply not_elem_of_nil).
  - unfold DATA_SOURCES. repeat apply Forall_cons_2; [..|apply Forall_nil_2].
    + exists user_engagement_features. split; [|done]. in_list.
    + exists driver_performance_features. split; [|done]. in_list.
    + exists product_features. split; [|done]. in_list.
    + exists transaction_features. split; [|done]. in_list.
    + exists user_session_features. split; [|done]. in_list.
Qed.

(** C9, as stated, fails: the lists are passed by reference, and a store
    that pops an object off the list it is given leaves [ENTITIES],
    [FEATURE_VIEWS] and [FEATURE_SERVICES] one element shorter. *)
Lemma C9_counterexample :
  let r := registry (final (apply_feature_definitions draining_store
                              (loaded []))) in
  r ≠ module_load ∧
  entities r = [user_entity; driver_entity; product_entity] ∧
  length (feature_views r) = 5 ∧
  length (feature_services r) = 3 ∧
  data_sources r = DATA_SOURCES.
Proof.
  cbv zeta. split; [|by vm_compute].
  intros Heq. apply (f_equal (λ r, length (entities r))) in Heq.
  vm_compute in Heq. discriminate.
Qed.

(** C9, amended. [apply_feature_definitions] itself never writes to the
    registry lists: every [store.apply] call finds them exactly as the
    previous call (or, for the first call, the caller) left them, and the
    function ends with them as the last call left them.  So for every
    store handle whose [apply] leaves the registry as it found it, the
    four collections are the same after the call as before it, whether
    the call returns or raises. *)
Theorem C9_registry_frame :
  ∀ (S : Type) (store : StoreHandle S) (w : World S),
    let w' := final (apply_feature_definitions store w) in
    registry_chain (registry w) (calls_since w w') (registry w') ∧
    ((∀ g r s, res_registry (apply store g r s) = r) →
     registry w' = registry w).
Proof.
  intros S store w w'. subst w'.
  destruct (apply_feature_definitions_trace store w) as [gs Ht].
  destruct (Trace_calls _ _ _ _ Ht) as [_ Hchain].
  split; [exact Hchain|]. intros Hframe. symmetry.
  apply (registry_chain_frame _ _ _ Hchain).
  clear Hchain.
  destruct Ht;
    repeat match goal with
    | H : store_apply _ _ _ = _ |- _ =>
        apply store_apply_final in H; cbn [final] in H; subst
    end; cbn [final].
  all: erewrite calls_since_app;
    [ | repeat (rewrite ?printed_log, applied_log);
        rewrite <- ?(assoc_L (++)); reflexivity ].
  all: repeat apply Forall_cons_2; try apply Forall_nil_2;
    cbn [call_after call_before];
    by rewrite applied_registry, Hframe.
Qed.

Lemma C9_registry_frame_witness :
  registry (final (apply_feature_definitions recording_store (loaded [])))
    = module_load.
Proof.
  apply (C9_registry_frame _ recording_store (loaded [])).
  intros g r s. reflexivity.
Defined.

(* ===================================================================== *)
(** ** The command-line run *)
(* ===================================================================== *)

Section Main.

Context {S : Type}.
Implicit Types (store : StoreHandle S) (w : World S).

Lemma main_unfold (FeatureStore : string → S → Constructed) w :
  main FeatureStore w =
  match construct FeatureStore "." w with
  | Raised e w0 => Raised e w0
  | Returned store w0 =>
    match apply_feature_definitions store w0 with
    | Raised e w1 => Raised e w1
    | Returned _ w1 =>
        Returned () (foldl (λ w line, printed line w) w1
                       (summary (registry w1)))
    end
  end.
Proof.
  unfold main, mbind, Py_bind, bind.
  destruct (construct FeatureStore "." w) as [store w0|e w0]; [|done].
  by destruct (apply_feature_definitions store w0) as [[] w1|e w1].
Qed.

Lemma printed_lines_stdout (lines : list string) w :
  stdout (foldl (λ w line, printed line w) w lines) = stdout w ++ lines.
Proof.
  revert w. induction lines as [|l lines IH]; intros w; simpl.
  - by rewrite app_nil_r.
  - rewrite IH. simpl. by rewrite <- (assoc_L (++)).
Qed.

Lemma summary_counts (r : Registry) :
  counts r = (4, 6, 4, 5) →
  summary r =
    [ String "010"%char "Feature Store Summary:"; "Entities: 4";
      "Feature Views: 6"; "Feature Services: 4"; "Data Sources: 5" ].
Proof.
  unfold counts, summary, contents. rewrite !length_fmap.
  by intros [= -> -> -> ->].
Qed.

End Main.

(** A store that leaves the registry lists as it found them leaves them
    so over a whole run of [apply_feature_definitions], returning or
    raising. *)
Lemma apply_feature_definitions_frame {S} (store : StoreHandle S)
    (w : World S) :
  (∀ g r st, res_registry (apply store g r st) = r) →
  registry (final (apply_feature_definitions store w)) = registry w.
Proof.
  intros Hframe.
  destruct (apply_feature_definitions_trace store w) as [gs Ht].
  destruct Ht;
    repeat match goal with
    | H : store_apply _ _ _ = _ |- _ =>
        apply store_apply_final in H; cbn [final] in H; subst
    end; cbn [final].
  all: by rewrite ?printed_registry, ?applied_registry, ?Hframe,
                  ?printed_registry, ?applied_registry, ?Hframe,
                  ?printed_registry, ?applied_registry, ?Hframe,
                  ?printed_registry.
Qed.

(** C7, as stated, fails: when the store's [apply] raises, the run ends
    with that error and prints no summary; and a store that pops objects
    off the lists makes the summary report other counts. *)
Lemma C7_counterexample :
  (raised (main (opening metered_store) (loaded 0)) = Some quota_exceeded ∧
   stdout (final (main (opening metered_store) (loaded 0)))
     = ["Applying entities..."]) ∧
  (raised (main (opening draining_store) (loaded [])) = None ∧
   stdout (final (main (opening draining_store) (loaded [])))
     = [ "Applying entities..."; "Applying feature views...";
         "Applying feature services...";
         "Feature definitions applied successfully!";
         String "010"%char "Feature Store Summary:"; "Entities: 3";
         "Feature Views: 5"; "Feature Services: 3"; "Data Sources: 5" ]).
Proof. repeat split; vm_compute; reflexivity. Qed.

(** C7, amended. Run as [__main__] right after the module has loaded,
    the block constructs a store for the path ["."] and calls
    [apply_feature_definitions] on it; if neither raises, and the store's
    [apply] leaves the registry lists as it found them, it then prints the
    heading and the lines [Entities: 4], [Feature Views: 6],
    [Feature Services: 4], [Data Sources: 5], in that order, and returns,
    the registry still as declared and nothing else changed. *)
Theorem C7_main_summary :
  ∀ (S : Type) (FeatureStore : string → S → Constructed) (s : S)
    (store : StoreHandle S) (w0 w1 : World S),
    construct FeatureStore "." (loaded s) = Returned store w0 →
    apply_feature_definitions store w0 = Returned () w1 →
    (∀ g r st, res_registry (apply store g r st) = r) →
    ∃ w2,
      main FeatureStore (loaded s) = Returned () w2 ∧
      stdout w2 = stdout w1 ++
        [ String "010"%char "Feature Store Summary:"; "Entities: 4";
          "Feature Views: 6"; "Feature Services: 4"; "Data Sources: 5" ] ∧
      registry w2 = module_load ∧ backend w2 = backend w1 ∧
      apply_log w2 = apply_log w1.
Proof.
  intros S FeatureStore s store w0 w1 Hopen Hrun Hframe.
  assert (registry w0 = module_load) as Hw0.
  { unfold construct in Hopen.
    destruct (new_store (FeatureStore "." (backend (loaded s))));
      [discriminate|]. by injection Hopen as _ <-. }
  assert (registry w1 = module_load) as Hw1.
  { rewrite <- Hw0.
    change w1 with (final (Returned (S:=S) () w1)). rewrite <- Hrun.
    by apply apply_feature_definitions_frame. }
  eexists. split.
  - rewrite main_unfold, Hopen, Hrun. reflexivity.
  - rewrite printed_lines_stdout, Hw1. by repeat split.
Qed.

Lemma C7_main_summary_witness :
  ∃ w2,
    main (opening recording_store) (loaded []) = Returned () w2 ∧
    stdout w2 =
      stdout (final (apply_feature_definitions recording_store (loaded [])))
      ++ [ String "010"%char "Feature Store Summary:"; "Entities: 4";
           "Feature Views: 6"; "Feature Services: 4"; "Data Sources: 5" ] ∧
    registry w2 = module_load
    ∧ backend w2 =
      backend (final (apply_feature_definitions recording_store (loaded [])))
    ∧ apply_log w2 =
      apply_log (final (apply_feature_definitions recording_store (loaded []))).
Proof.
  apply (C7_main_summary _ (opening recording_store) []
           recording_store (loaded [])
           (final (apply_feature_definitions recording_store (loaded []))));
    [reflexivity | reflexivity | intros g r st; reflexivity].
Defined.

(* ===================================================================== *)
(** ** Further invariants of the declared registry *)
(* ===================================================================== *)

(** X1. Names are unique in the other three registries as well: no two
    feature views, no two feature services and no two data sources at
    different positions of their list share a name. *)
Theorem X1_registry_names_unique :
  unique_by fv_name FEATURE_VIEWS ∧
  unique_by fs_name FEATURE_SERVICES ∧
  unique_by source_name DATA_SOURCES.
Proof.
  repeat split; apply NoDup_unique_by;
    by apply (bool_decide_unpack _); vm_compute.
Qed.

Lemma feature_names_disjoint :
  Forall (λ v1, Forall (λ v2,
    Forall (λ f1, Forall (λ f2,
      feature_name f1 = feature_name f2 → v1 = v2 ∧ f1 = f2)
      (fv_features v2)) (fv_features v1)) FEATURE_VIEWS) FEATURE_VIEWS.
Proof. by apply (bool_decide_unpack _); vm_compute. Qed.

(** X2. A feature name identifies its feature across the whole module:
    two features of views of [FEATURE_VIEWS] with the same name are the
    same feature of the same view. *)
Theorem X2_feature_name_identifies_view :
  ∀ (v1 v2 : FeatureView) (f1 f2 : Feature),
    v1 ∈ FEATURE_VIEWS → v2 ∈ FEATURE_VIEWS →
    f1 ∈ fv_features v1 → f2 ∈ fv_features v2 →
    feature_name f1 = feature_name f2 → v1 = v2 ∧ f1 = f2.
Proof.
  intros v1 v2 f1 f2 Hv1 Hv2 Hf1 Hf2.
  pose proof (proj1 (Forall_forall _ _) feature_names_disjoint v1 Hv1) as H1.
  pose proof (proj1 (Forall_forall _ _) H1 v2 Hv2) as H2.
  pose proof (proj1 (Forall_forall _ _) H2 f1 Hf1) as H3.
  exact (proj1 (Forall_forall _ _) H3 f2 Hf2).
Qed.

Lemma X2_feature_name_identifies_view_witness :
  let f := mk_Feature "category" STRING (Some "Product category") in
  product_features ∈ FEATURE_VIEWS ∧ f ∈ fv_features product_features ∧
  (product_features = product_features ∧ f = f).
Proof.
  intros f.
  assert (product_features ∈ FEATURE_VIEWS) as Hv
    by (unfold FEATURE_VIEWS; in_list).
  assert (f ∈ fv_features product_features) as Hf by (simpl; in_list).
  split; [exact Hv|]. split; [exact Hf|].
  exact (X2_feature_name_identifies_view product_features product_features
           f f Hv Hv Hf Hf eq_refl).
Defined.

Lemma served_names_distinct :
  Forall (λ s, NoDup (served_names s) ∧
               NoDup (fv_name ∘ sel_view <$> fs_features s))
         FEATURE_SERVICES.
Proof.
  repeat (apply Forall_cons_2 || apply Forall_nil_2 || split);
    by apply (bool_decide_unpack _); vm_compute.
Qed.

(** X3. Within every feature service of [FEATURE_SERVICES] no feature
    name is served twice, whether by one selection or by two, and no view
    is selected twice. *)
Theorem X3_service_serves_each_name_once :
  ∀ (s : FeatureService), s ∈ FEATURE_SERVICES →
    NoDup (served_names s) ∧
    unique_by (fv_name ∘ sel_view) (fs_features s).
Proof.
  intros s Hs.
  destruct (proj1 (Forall_forall _ _) served_names_distinct s Hs) as [H1 H2].
  split; [exact H1|]. by apply NoDup_unique_by.
Qed.

Lemma X3_service_serves_each_name_once_witness :
  fraud_detection_feature_service ∈ FEATURE_SERVICES ∧
  NoDup (served_names fraud_detection_feature_service) ∧
  unique_by (fv_name ∘ sel_view) (fs_features fraud_detection_feature_service).
Proof.
  assert (fraud_detection_feature_service ∈ FEATURE_SERVICES) as Hs
    by (unfold FEATURE_SERVICES; in_list).
  split; [exact Hs|].
  exact (X3_service_serves_each_name_once fraud_detection_feature_service Hs).
Defined.

Lemma views_all_served :
  Forall (λ v, Exists (λ s, Exists (λ sel, sel_view sel = v ∧ sel_names sel ≠ [])
                              (fs_features s)) FEATURE_SERVICES)
         FEATURE_VIEWS.
Proof. by apply (bool_decide_unpack _); vm_compute. Qed.

(** X4. No feature view is declared in vain: every view of
    [FEATURE_VIEWS] is selected, with at least one feature name, by some
    service of [FEATURE_SERVICES]. *)
Theorem X4_every_view_is_served :
  ∀ (v : FeatureView), v ∈ FEATURE_VIEWS →
    ∃ s sel, s ∈ FEATURE_SERVICES ∧ sel ∈ fs_features s ∧
             sel_view sel = v ∧ sel_names sel ≠ [].
Proof.
  intros v Hv.
  pose proof (proj1 (Forall_forall _ _) views_all_served v Hv) as Hex.
  apply Exists_exists in Hex as (s & Hs & Hsel).
  apply Exists_exists in Hsel as (sel & Hsel & Heq & Hne).
  by exists s, sel.
Qed.

Lemma X4_every_view_is_served_witness :
  user_session_features ∈ FEATURE_VIEWS ∧
  ∃ s sel, s ∈ FEATURE_SERVICES ∧ sel ∈ fs_features s ∧
           sel_view sel = user_session_features ∧ sel_names sel ≠ [].
Proof.
  assert (user_session_features ∈ FEATURE_VIEWS) as Hv
    by (unfold FEATURE_VIEWS; in_list).
  split; [exact Hv|].
  exact (X4_every_view_is_served user_session_features Hv).
Defined.

Lemma location_not_joined :
  Forall (λ v, "location_id" ∉ fv_entities v) FEATURE_VIEWS.
Proof. by apply (bool_decide_unpack _); vm_compute. Qed.

(** X5. Of the four entities of [ENTITIES], three are join keys of some
    feature view; [location_id] is declared and registered, but no view of
    [FEATURE_VIEWS] joins on it. *)
Theorem X5_entity_usage :
  ∀ (e : Entity), e ∈ ENTITIES →
    (∃ v, v ∈ FEATURE_VIEWS ∧ entity_name e ∈ fv_entities v) ↔
    entity_name e ≠ "location_id".
Proof.
  intros e He. apply list_elem_of_In in He. simpl in He.
  destruct He as [<-|[<-|[<-|[<-|[]]]]]; simpl.
  - split; [done|]. intros _. exists user_engagement_features.
    split; [unfold FEATURE_VIEWS|simpl]; in_list.
  - split; [done|]. intros _. exists driver_performance_features.
    split; [unfold FEATURE_VIEWS|simpl]; in_list.
  - split; [done|]. intros _. exists product_features.
    split; [unfold FEATURE_VIEWS|simpl]; in_list.
  - split; [|done]. intros (v & Hv & Hin).
    by destruct (proj1 (Forall_forall _ _) location_not_joined v Hv).
Qed.

Lemma X5_entity_usage_witness :
  location_entity ∈ ENTITIES ∧
  ((∃ v, v ∈ FEATURE_VIEWS ∧ entity_name location_entity ∈ fv_entities v) ↔
   entity_name location_entity ≠ "location_id").
Proof.
  assert (location_entity ∈ ENTITIES) as He by (unfold ENTITIES; in_list).
  split; [exact He|]. exact (X5_entity_usage location_entity He).
Defined.

(** X6. A view fed by a request source declares exactly the features of
    the request schema: the same names with the same value types, in the
    same order. *)
Theorem X6_request_schema_matches_view :
  ∀ (v : FeatureView) (n d : string) (schema : list Feature),
    v ∈ FEATURE_VIEWS → fv_batch_source v = RequestSource n schema d →
    signature <$> fv_features v = signature <$> schema.
Proof.
  intros v n d schema Hv Hsrc. apply list_elem_of_In in Hv. simpl in Hv.
  repeat (destruct Hv as [<-|Hv]; [try discriminate Hsrc|]); [|destruct Hv].
  injection Hsrc as <- <- <-. reflexivity.
Qed.

Lemma X6_request_schema_matches_view_witness :
  user_session_features ∈ FEATURE_VIEWS ∧
  signature <$> fv_features user_session_features =
    [ ("current_session_duration", INT64); ("pages_viewed_session", INT64);
      ("current_device_type", STRING) ].
Proof.
  assert (user_session_features ∈ FEATURE_VIEWS) as Hv
    by (unfold FEATURE_VIEWS; in_list).
  split; [exact Hv|].
  exact (X6_request_schema_matches_view user_session_features
           "user_activity_stream_source"
           "Real-time user activity for current session"
           [ mk_Feature "current_session_duration" INT64 None;
             mk_Feature "pages_viewed_session" INT64 None;
             mk_Feature "current_device_type" STRING None ]
           Hv eq_refl).
Defined.

Lemma views_servable :
  Forall (λ v, fv_online v = true ∧ length (fv_entities v) = 1 ∧
               fv_features v ≠ [] ∧
               timedelta_le (fv_ttl v) timedelta_zero = false ∧
               timedelta_le (fv_ttl v) (timedelta_of 30 0) = true)
         FEATURE_VIEWS.
Proof. repeat (apply Forall_cons_2 || apply Forall_nil_2); by repeat split. Qed.

(** X7. Every feature view of [FEATURE_VIEWS] is enabled for online
    serving, joins on a single entity, declares at least one feature, and
    has a ttl that is strictly positive and at most thirty days. *)
Theorem X7_views_servable :
  ∀ (v : FeatureView), v ∈ FEATURE_VIEWS →
    fv_online v = true ∧ length (fv_entities v) = 1 ∧
    fv_features v ≠ [] ∧
    timedelta_le (fv_ttl v) timedelta_zero = false ∧
    timedelta_le (fv_ttl v) (timedelta_of 30 0) = true.
Proof.
  intros v Hv. exact (proj1 (Forall_forall _ _) views_servable v Hv).
Qed.

Lemma X7_views_servable_witness :
  user_demographics_features ∈ FEATURE_VIEWS ∧
  fv_online user_demographics_features = true ∧
  length (fv_entities user_demographics_features) = 1 ∧
  fv_features user_demographics_features ≠ [] ∧
  timedelta_le (fv_ttl user_demographics_features) timedelta_zero = false ∧
  timedelta_le (fv_ttl user_demographics_features) (timedelta_of 30 0) = true.
Proof.
  assert (user_demographics_features ∈ FEATURE_VIEWS) as Hv
    by (unfold FEATURE_VIEWS; in_list).
  split; [exact Hv|].
  exact (X7_views_servable user_demographics_features Hv).
Defined.

(* ===================================================================== *)
(** ** Further properties of the registration and of the command-line run *)
(* ===================================================================== *)

Section Output.

Context {S : Type}.
Implicit Types (store : StoreHandle S) (w : World S) (g : Global).

Lemma printed_stdout (line : string) w :
  stdout (printed line w) = stdout w ++ [line].
Proof. reflexivity. Qed.

Lemma applied_stdout store g w :
  stdout (applied store g w) =
  stdout w ++ res_printed (apply store g (registry w) (backend w)).
Proof.
  unfold applied, store_apply.
  by destruct (res_raised (apply store g (registry w) (backend w))).
Qed.

Lemma applied_stdout_silent store g w :
  silent store → stdout (applied store g w) = stdout w.
Proof. intros Hs. by rewrite applied_stdout, Hs, app_nil_r. Qed.

Lemma printed_lines_world (lines : list string) w :
  let w' := foldl (λ w line, printed line w) w lines in
  registry w' = registry w ∧ backend w' = backend w ∧
  apply_log w' = apply_log w.
Proof.
  revert w. induction lines as [|l lines IH]; intros w; simpl; [done|].
  destruct (IH (printed l w)) as (-> & -> & ->). done.
Qed.

Lemma construct_world (FeatureStore : string → S → Constructed)
    (path : string) w :
  let w' := final (construct FeatureStore path w) in
  registry w' = registry w ∧ stdout w' = stdout w ∧
  apply_log w' = apply_log w ∧
  backend w' = new_state (FeatureStore path (backend w)).
Proof.
  unfold construct.
  by destruct (new_store (FeatureStore path (backend w))).
Qed.

Lemma calls_since_same_log w w0 w' :
  apply_log w0 = apply_log w → calls_since w w' = calls_since w0 w'.
Proof. unfold calls_since. by intros ->. Qed.

End Output.

(** X8. With a store that prints nothing, [apply_feature_definitions]
    prints one progress line for each [store.apply] call it makes, in
    order and each before its call, and after them the success line
    exactly when it returns; a run that raises never prints it. *)
Theorem X8_progress_output :
  ∀ (S : Type) (store : StoreHandle S) (w : World S),
    silent store →
    let o := apply_feature_definitions store w in
    stdout (final o) =
      stdout w ++ take (length (invoked store w)) progress_lines ++
      match raised o with None => [success_line] | Some _ => [] end.
Proof.
  intros S store w Hs o. subst o. unfold invoked.
  destruct (apply_feature_definitions_trace store w) as [gs Ht].
  destruct (Trace_calls _ _ _ _ Ht) as [-> _].
  destruct Ht;
    repeat match goal with
    | H : store_apply _ _ _ = _ |- _ =>
        apply store_apply_final in H; cbn [final] in H; subst
    end; cbn [final raised length take progress_lines].
  all: repeat (rewrite ?printed_stdout, ?applied_stdout_silent by done).
  all: by rewrite <- ?(assoc_L (++)).
Qed.

Lemma X8_progress_output_witness :
  silent metered_store ∧
  stdout (final (apply_feature_definitions metered_store (loaded 1))) =
    [ "Applying entities..."; "Applying feature views..." ].
Proof.
  assert (silent metered_store) as Hs by (by intros g r [|s]).
  split; [exact Hs|].
  exact (X8_progress_output nat metered_store (loaded 1) Hs).
Defined.

(** X9. If constructing the store raises, the command-line run raises
    that error at once: nothing is printed, [store.apply] is never
    called, and the registry is untouched. *)
Theorem X9_main_construct_fails :
  ∀ (S : Type) (FeatureStore : string → S → Constructed) (w : World S)
    (e : Exception),
    new_store (FeatureStore "." (backend w)) = inl e →
    ∃ w', main FeatureStore w = Raised e w' ∧
          stdout w' = stdout w ∧ apply_log w' = apply_log w ∧
          registry w' = registry w ∧
          backend w' = new_state (FeatureStore "." (backend w)).
Proof.
  intros S FeatureStore w e He. eexists. split.
  - rewrite main_unfold. unfold construct. rewrite He. reflexivity.
  - done.
Qed.

Lemma X9_main_construct_fails_witness :
  ∃ w', main unconfigured (loaded ()) = Raised config_missing w' ∧
        stdout w' = [] ∧ apply_log w' = [] ∧
        registry w' = module_load ∧ backend w' = ().
Proof.
  exact (X9_main_construct_fails unit unconfigured (loaded ())
           config_missing eq_refl).
Defined.

(** X10. If [apply_feature_definitions] raises, the command-line run
    raises the same error and stops in the same state: no summary line is
    printed after it. *)
Theorem X10_main_registration_fails :
  ∀ (S : Type) (FeatureStore : string → S → Constructed)
    (store : StoreHandle S) (w w0 w1 : World S) (e : Exception),
    construct FeatureStore "." w = Returned store w0 →
    apply_feature_definitions store w0 = Raised e w1 →
    main FeatureStore w = Raised e w1.
Proof.
  intros S FeatureStore store w w0 w1 e Hopen Hrun.
  by rewrite main_unfold, Hopen, Hrun.
Qed.

Lemma X10_main_registration_fails_witness :
  main (opening metered_store) (loaded 0) =
  Raised quota_exceeded
    (applied metered_store G_ENTITIES
       (printed "Applying entities..." (loaded 0))).
Proof.
  exact (X10_main_registration_fails nat (opening metered_store)
           metered_store (loaded 0) (loaded 0) _ quota_exceeded
           eq_refl eq_refl).
Defined.

(** X11. When construction and registration both return, the run prints
    after them exactly five lines, the heading and four counts, and the
    counts are the lengths of the four lists as the store has left them,
    whatever they are; the run changes nothing else. *)
Theorem X11_main_reports_live_lengths :
  ∀ (S : Type) (FeatureStore : string → S → Constructed)
    (store : StoreHandle S) (w w0 w1 : World S),
    construct FeatureStore "." w = Returned store w0 →
    apply_feature_definitions store w0 = Returned () w1 →
    ∃ w2,
      main FeatureStore w = Returned () w2 ∧
      stdout w2 = stdout w1 ++
        [ String "010"%char "Feature Store Summary:";
          fmt "Entities" (length (entities (registry w1)));
          fmt "Feature Views" (length (feature_views (registry w1)));
          fmt "Feature Services" (length (feature_services (registry w1)));
          fmt "Data Sources" (length (data_sources (registry w1))) ] ∧
      registry w2 = registry w1 ∧ backend w2 = backend w1 ∧
      apply_log w2 = apply_log w1.
Proof.
  intros S FeatureStore store w w0 w1 Hopen Hrun. eexists. split.
  - rewrite main_unfold, Hopen, Hrun. reflexivity.
  - rewrite printed_lines_stdout. unfold summary, contents.
    rewrite !length_fmap. split; [done|].
    apply printed_lines_world.
Qed.

Lemma X11_main_reports_live_lengths_witness :
  ∃ w2,
    main (opening draining_store) (loaded []) = Returned () w2 ∧
    stdout w2 =
      stdout (final (apply_feature_definitions draining_store (loaded [])))
      ++ [ String "010"%char "Feature Store Summary:";
           fmt "Entities" 3; fmt "Feature Views" 5;
           fmt "Feature Services" 3; fmt "Data Sources" 5 ] ∧
    registry w2 =
      registry (final (apply_feature_definitions draining_store (loaded [])))
    ∧ backend w2 =
      backend (final (apply_feature_definitions draining_store (loaded [])))
    ∧ apply_log w2 =
      apply_log (final (apply_feature_definitions draining_store (loaded []))).
Proof.
  exact (X11_main_reports_live_lengths _ (opening draining_store)
           draining_store (loaded []) (loaded [])
           (final (apply_feature_definitions draining_store (loaded [])))
           eq_refl eq_refl).
Defined.

(** X12. The command-line run calls [store.apply] only through
    [apply_feature_definitions]: whatever the constructor and the store
    do, the arguments it passes are an initial part of [ENTITIES],
    [FEATURE_VIEWS], [FEATURE_SERVICES], and [DATA_SOURCES], which the
    summary counts, is never one of them. *)
Theorem X12_main_calls :
  ∀ (S : Type) (FeatureStore : string → S → Constructed) (w : World S),
    let gs := call_arg <$> calls_since w (final (main FeatureStore w)) in
    gs `prefix_of` registration_order ∧ G_DATA_SOURCES ∉ gs.
Proof.
  intros S FeatureStore w gs. subst gs. rewrite main_unfold.
  pose proof (construct_world FeatureStore "." w) as (_ & _ & Hlog & _).
  destruct (construct FeatureStore "." w) as [store w0|e w0];
    cbn [final] in *.
  - rewrite (calls_since_same_log w w0) by done.
    destruct (apply_feature_definitions_trace store w0) as [gs Ht].
    pose proof (Trace_calls _ _ _ _ Ht) as [Hgs _].
    assert (call_arg <$> calls_since w0
              (final match apply_feature_definitions store w0 with
                     | Returned _ w1 =>
                         Returned ()
                           (foldl (λ w line, printed line w) w1
                              (summary (registry w1)))
                     | Raised e w1 => Raised e w1
                     end) = gs) as ->.
    { rewrite <- Hgs.
      destruct (apply_feature_definitions store w0) as [[] w1|e w1];
        cbn [final]; [|done].
      unfold calls_since.
      by destruct (printed_lines_world (summary (registry w1)) w1)
        as (_ & _ & ->). }
    destruct Ht; unfold registration_order; rewrite !not_elem_of_cons;
      (split; [ by eexists
              | repeat split; (discriminate || apply not_elem_of_nil) ]).
  - rewrite (calls_since_app w w0 []) by (by rewrite app_nil_r).
    split; [apply prefix_nil | apply not_elem_of_nil].
Qed.

(** X13. With a store whose [apply] leaves the registry lists as it found
    them, every [store.apply] call that is made receives its collection
    with exactly the contents the lists had when
    [apply_feature_definitions] was entered. *)
Theorem X13_collections_handed_as_declared :
  ∀ (S : Type) (store : StoreHandle S) (w : World S),
    (∀ g r s, res_registry (apply store g r s) = r) →
    Forall (λ c, call_before c = registry w ∧ call_after c = registry w)
      (calls_since w (final (apply_feature_definitions store w))).
Proof.
  intros S store w Hframe.
  destruct (apply_feature_definitions_trace store w) as [gs Ht].
  destruct Ht;
    repeat match goal with
    | H : store_apply _ _ _ = _ |- _ =>
        apply store_apply_final in H; cbn [final] in H; subst
    end; cbn [final].
  all: erewrite calls_since_app;
    [ | repeat (rewrite ?printed_log, applied_log);
        rewrite <- ?(assoc_L (++)); reflexivity ].
  all: repeat apply Forall_cons_2; try apply Forall_nil_2;
    cbn [call_after call_before];
    by rewrite ?applied_registry, ?Hframe, ?printed_registry,
               ?applied_registry, ?Hframe, ?printed_registry,
               ?applied_registry, ?Hframe, ?printed_registry.
Qed.

Lemma X13_collections_handed_as_declared_witness :
  Forall (λ c, call_before c = module_load ∧ call_after c = module_load)
    (calls_since (loaded [])
       (final (apply_feature_definitions recording_store (loaded [])))).
Proof.
  apply (X13_collections_handed_as_declared _ recording_store (loaded [])).
  intros g r s. reflexivity.
Defined.

(** X14. Every feature service of [FEATURE_SERVICES] is tagged with a
    model and a version, and its name is the model, an underscore and the
    version. *)
Theorem X14_service_name_from_tags :
  ∀ (s : FeatureService), s ∈ FEATURE_SERVICES →
    ∃ model version,
      fs_tags s !! "model" = Some model ∧
      fs_tags s !! "version" = Some version ∧
      fs_name s = model +:+ "_" +:+ version.
Proof.
  intros s Hs. apply list_elem_of_In in Hs. simpl in Hs.
  repeat (destruct Hs as [<-|Hs];
          [eexists; eexists; repeat split; vm_compute; reflexivity|]).
  destruct Hs.
Qed.

Lemma X14_service_name_from_tags_witness :
  churn_prediction_feature_service ∈ FEATURE_SERVICES ∧
  ∃ model version,
    fs_tags churn_prediction_feature_service !! "model" = Some model ∧
    fs_tags churn_prediction_feature_service !! "version" = Some version ∧
    fs_name churn_prediction_feature_service = model +:+ "_" +:+ version.
Proof.
  assert (churn_prediction_feature_service ∈ FEATURE_SERVICES) as Hs
    by (unfold FEATURE_SERVICES; in_list).
  split; [exact Hs|].
  exact (X14_service_name_from_tags churn_prediction_feature_service Hs).
Defined.

(** X15. Every entity of [ENTITIES] is tagged with a team and a domain,
    and its name is the domain followed by [_id]. *)
Theorem X15_entity_name_from_domain :
  ∀ (e : Entity), e ∈ ENTITIES →
    is_Some (entity_tags e !! "team") ∧
    ∃ domain, entity_tags e !! "domain" = Some domain ∧
              entity_name e = domain +:+ "_id".
Proof.
  intros e He. apply list_elem_of_In in He. simpl in He.
  repeat (destruct He as [<-|He];
          [split; eexists; repeat split; vm_compute; reflexivity|]).
  destruct He.
Qed.

Lemma X15_entity_name_from_domain_witness :
  product_entity ∈ ENTITIES ∧
  is_Some (entity_tags product_entity !! "team") ∧
  ∃ domain, entity_tags product_entity !! "domain" = Some domain ∧
            entity_name product_entity = domain +:+ "_id".
Proof.
  assert (product_entity ∈ ENTITIES) as He by (unfold ENTITIES; in_list).
  split; [exact He|]. exact (X15_entity_name_from_domain product_entity He).
Defined.
